(** * Wardrobe shop backend: ledger, refund and approval bookkeeping

    A shallow embedding of the Django models and serializers of
    [wardrobe_api/API] (models.py, serializers.py, views.py), and the
    properties of the refund processor, the transaction ledger and the
    approval workflow.

    Conventions of the embedding.
    - The relational store is a record [DB] with one table per model the
      bookkeeping touches.  Tables whose rows are fetched and written back
      by primary key are finite maps; tables that are only appended to and
      scanned are lists (in primary-key order).
    - Code runs in a state-and-exception monad [Tx].  A Python exception
      leaves the store as it is at the point of the raise; the context
      manager [transaction.atomic()] is [atomic], which puts the store back
      to what it was at entry when its body raises.
    - Money is a whole number in [Z]; amounts with a fractional part are
      outside the embedding.  A stored [FloatField] is a Python float and a
      stored [DecimalField] a Decimal when read back; the refund amount of
      an instance in memory carries its Python type ([PyNum]), because the
      arithmetic of [Refund.save] mixes the three and Python refuses
      float with Decimal.  Quantities are Python integers, [Z].
    - An ORM call stands for its effect on the store: [objects.create]
      inserts a row under a fresh primary key, [save()] writes the in-memory
      object back under its primary key, a foreign-key attribute loads the
      row it points to and raises [DoesNotExist] when there is none.  A
      model constructor called with a keyword that is no field of the model
      raises [TypeError], and so does a function called without its
      required arguments; an attribute a class does not have raises
      [AttributeError].
    - Constraints the store itself enforces (foreign keys, the range of a
      field) depend on the database behind the models and are not
      modelled: the model may store a row that the database would refuse.
      The general statements below are about what the code does when it
      raises, or about what holds whenever it returns; the instances at
      which a call is shown to return keep to these constraints (every
      key of the request names a stored row, every quantity is
      positive). *)

From stdpp Require Import gmap strings list fin_maps.

Open Scope string_scope.
Open Scope list_scope.
Open Scope Z_scope.

(** ** Data model (models.py) *)

(** Profile (models.py:39): only the role takes part in the workflow. *)
Record Profile := mkProfile {
  pr_shop : option nat;
  pr_role : string
}.

(** Product (models.py:88). *)
Record Product := mkProduct {
  p_name : string;
  p_price : Z;
  p_quantity : Z
}.

(** Order (models.py:105) and OrderItem (models.py:133). *)
Record Order := mkOrder {
  o_shop : nat;
  o_customer_name : string;
  o_total_amount : Z;
  o_status : string
}.

Record OrderItem := mkOrderItem {
  oi_order : nat;
  oi_product : nat;
  oi_quantity : Z
}.

(** Sale (models.py:138) and SaleItem (models.py:158). *)
Record Sale := mkSale {
  s_shop : nat;
  s_attendant : option nat;
  s_total_amount : Z;
  s_mode_of_payment : string;
  s_is_complete : bool;
  s_is_refunded : bool;
  s_total_refunded_amount : Z
}.

Record SaleItem := mkSaleItem {
  si_sale : nat;
  si_product : nat;
  si_quantity : Z;
  si_price : Z
}.

(** The Python type of a number held in memory. *)
Inductive PyNum := PyInt | PyDecimal | PyFloat.

(** Refund (models.py:168).  [r_refund_amount_type] is the Python type of
    [refund_amount] on the instance being saved: a Decimal when the
    instance was built by the serializer from a request, an int or a float
    when it was built in code with such a literal. *)
Record Refund := mkRefund {
  r_shop : nat;
  r_refund_type : string;
  r_sale : option nat;
  r_order : option nat;
  r_product : nat;
  r_quantity : Z;
  r_refund_amount : Z;
  r_reason : string;
  r_refund_amount_type : PyNum
}.

(** ApprovalRequest (models.py:269). *)
Record ApprovalRequest := mkApprovalRequest {
  a_request_type : string;
  a_admin : nat;
  a_shop : nat;
  a_status : string;
  a_phase : string;
  a_refund : option nat;
  a_user_requesting_role_change : option nat
}.

(** The persisted state. *)
Record DB := mkDB {
  profiles : gmap nat Profile;
  products : gmap nat Product;
  orders : gmap nat Order;
  order_items : list OrderItem;
  sales : gmap nat Sale;
  sale_items : list SaleItem;
  refunds : list Refund;
  approval_requests : list ApprovalRequest
}.

Definition empty_db : DB := mkDB ∅ ∅ ∅ [] ∅ [] [] [].

(** Field updates. *)
Definition set_products (f : gmap nat Product → gmap nat Product) (db : DB) : DB :=
  mkDB (profiles db) (f (products db)) (orders db) (order_items db)
       (sales db) (sale_items db) (refunds db) (approval_requests db).
Definition set_orders (f : gmap nat Order → gmap nat Order) (db : DB) : DB :=
  mkDB (profiles db) (products db) (f (orders db)) (order_items db)
       (sales db) (sale_items db) (refunds db) (approval_requests db).
Definition set_order_items (f : list OrderItem → list OrderItem) (db : DB) : DB :=
  mkDB (profiles db) (products db) (orders db) (f (order_items db))
       (sales db) (sale_items db) (refunds db) (approval_requests db).
Definition set_sales (f : gmap nat Sale → gmap nat Sale) (db : DB) : DB :=
  mkDB (profiles db) (products db) (orders db) (order_items db)
       (f (sales db)) (sale_items db) (refunds db) (approval_requests db).
Definition set_sale_items (f : list SaleItem → list SaleItem) (db : DB) : DB :=
  mkDB (profiles db) (products db) (orders db) (order_items db)
       (sales db) (f (sale_items db)) (refunds db) (approval_requests db).
Definition set_refunds (f : list Refund → list Refund) (db : DB) : DB :=
  mkDB (profiles db) (products db) (orders db) (order_items db)
       (sales db) (sale_items db) (f (refunds db)) (approval_requests db).
Definition set_approval_requests
    (f : list ApprovalRequest → list ApprovalRequest) (db : DB) : DB :=
  mkDB (profiles db) (products db) (orders db) (order_items db)
       (sales db) (sale_items db) (refunds db) (f (approval_requests db)).
Definition set_profiles (f : gmap nat Profile → gmap nat Profile) (db : DB) : DB :=
  mkDB (f (profiles db)) (products db) (orders db) (order_items db)
       (sales db) (sale_items db) (refunds db) (approval_requests db).

Definition with_quantity (q : Z) (p : Product) : Product :=
  mkProduct (p_name p) (p_price p) q.
Definition order_with_total (t : Z) (o : Order) : Order :=
  mkOrder (o_shop o) (o_customer_name o) t (o_status o).
Definition order_with_status (st : string) (o : Order) : Order :=
  mkOrder (o_shop o) (o_customer_name o) (o_total_amount o) st.
Definition sale_with_total (t : Z) (s : Sale) : Sale :=
  mkSale (s_shop s) (s_attendant s) t (s_mode_of_payment s) (s_is_complete s)
         (s_is_refunded s) (s_total_refunded_amount s).
Definition sale_with_refunded_amount (t : Z) (s : Sale) : Sale :=
  mkSale (s_shop s) (s_attendant s) (s_total_amount s) (s_mode_of_payment s)
         (s_is_complete s) (s_is_refunded s) t.
Definition sale_with_is_refunded (b : bool) (s : Sale) : Sale :=
  mkSale (s_shop s) (s_attendant s) (s_total_amount s) (s_mode_of_payment s)
         (s_is_complete s) b (s_total_refunded_amount s).
Definition request_with_status (st : string) (a : ApprovalRequest) : ApprovalRequest :=
  mkApprovalRequest (a_request_type a) (a_admin a) (a_shop a) st (a_phase a)
                    (a_refund a) (a_user_requesting_role_change a).
Definition request_with_phase (ph : string) (a : ApprovalRequest) : ApprovalRequest :=
  mkApprovalRequest (a_request_type a) (a_admin a) (a_shop a) (a_status a) ph
                    (a_refund a) (a_user_requesting_role_change a).
Definition profile_with_role (ro : string) (p : Profile) : Profile :=
  mkProfile (pr_shop p) ro.

(** ** The monad of request handlers *)

Inductive Error :=
  | ValidationError (msg : string)
  | DoesNotExist (model : string)
  | TypeError (msg : string)
  | AttributeError (msg : string).

Definition Tx (A : Type) : Type := DB → (Error + A) * DB.

#[global] Instance Tx_ret : MRet Tx := λ A a db, (inr a, db).
#[global] Instance Tx_bind : MBind Tx := λ A B k m db,
  match m db with
  | (inr a, db') => k a db'
  | (inl e, db') => (inl e, db')
  end.
#[global] Instance Tx_throw : MThrow Error Tx := λ A e db, (inl e, db).

Definition get_db : Tx DB := λ db, (inr db, db).
Definition modify_db (f : DB → DB) : Tx unit := λ db, (inr (), f db).

(** [with transaction.atomic(): body] *)
Definition atomic {A} (body : Tx A) : Tx A := λ db,
  match body db with
  | (inl e, _) => (inl e, db)
  | (inr a, db') => (inr a, db')
  end.

(** Loading a row through a primary key or a foreign key. *)
Definition load {A} (model : string) (table : DB → gmap nat A) (pk : nat) : Tx A :=
  db ← get_db;
  match table db !! pk with
  | Some row => mret row
  | None => mthrow (DoesNotExist model)
  end.

(** The primary key the store hands to the next inserted row. *)
Definition next_pk {A} (table : gmap nat A) : nat := fresh (dom table).

(** ** Refund processor (models.py:184-244) *)

Definition NotApproved : Error :=
  ValidationError "Refund request is not approved by an admin.".
Definition ExcessiveRefund : Error :=
  ValidationError "Refund amount cannot exceed item value.".

Definition is_approved_refund_request (shop : nat) (a : ApprovalRequest) : Prop :=
  a_shop a = shop ∧ a_request_type a = "Refund" ∧ a_status a = "Approved".

#[global] Instance is_approved_refund_request_dec shop a :
  Decision (is_approved_refund_request shop a).
Proof. unfold is_approved_refund_request. apply _. Defined.

(** [ApprovalRequest.objects.filter(shop=.., request_type='Refund',
    status='Approved').first()] *)
Definition approved_refund_request (shop : nat) (db : DB) : option ApprovalRequest :=
  head (filter (is_approved_refund_request shop) (approval_requests db)).

(** [Refund.clean] *)
Definition Refund_clean (r : Refund) : Tx unit :=
  db ← get_db;
  match approved_refund_request (r_shop r) db with
  | None => mthrow NotApproved
  | Some _ =>
      product ← load "Product" products (r_product r);
      if p_price product * r_quantity r <? r_refund_amount r
      then mthrow ExcessiveRefund
      else mret ()
  end.

(** Python's [sum] over a list of integers. *)
Definition Zsum (l : list Z) : Z := foldr Z.add 0 l.

(** [Order.get_items_quantity] *)
Definition Order_get_items_quantity (oid : nat) (db : DB) : Z :=
  Zsum (oi_quantity <$> filter (λ it, oi_order it = oid) (order_items db)).

(** [sum([refund.quantity for refund in order.refunds.all()])] *)
Definition refunded_items (oid : nat) (db : DB) : Z :=
  Zsum (r_quantity <$> filter (λ r, r_order r = Some oid) (refunds db)).

(** [x -= y] for a float [x] read from a FloatField: Python has no
    subtraction of a Decimal from a float. *)
Definition float_isub_Decimal : Error :=
  TypeError "unsupported operand type(s) for -=: 'float' and 'decimal.Decimal'".

Definition float_isub (x : Z) (ty : PyNum) (y : Z) : Tx Z :=
  match ty with
  | PyDecimal => mthrow float_isub_Decimal
  | PyInt | PyFloat => mret (x - y)
  end.

(** [x += y] for a Decimal [x] read from a DecimalField: Python has no
    addition of a float to a Decimal. *)
Definition decimal_iadd_float : Error :=
  TypeError "unsupported operand type(s) for +=: 'decimal.Decimal' and 'float'".

Definition decimal_iadd (x : Z) (ty : PyNum) (y : Z) : Tx Z :=
  match ty with
  | PyFloat => mthrow decimal_iadd_float
  | PyInt | PyDecimal => mret (x + y)
  end.

(** The sale branch of [Refund.save] (models.py:208-223). *)
Definition Refund_apply_to_sale (r : Refund) (sid : nat) : Tx unit :=
  sale ← load "Sale" sales sid;
  total_amount ← float_isub (s_total_amount sale)
                   (r_refund_amount_type r) (r_refund_amount r);
  let sale := sale_with_total total_amount sale in
  total_refunded_amount ← decimal_iadd (s_total_refunded_amount sale)
                            (r_refund_amount_type r) (r_refund_amount r);
  let sale := sale_with_refunded_amount total_refunded_amount sale in
  modify_db (set_sales <[sid := sale]>);;
  product ← load "Product" products (r_product r);
  let product := with_quantity (p_quantity product + r_quantity r) product in
  modify_db (set_products <[r_product r := product]>);;
  if s_total_refunded_amount sale >=? s_total_amount sale
  then modify_db (set_sales <[sid := sale_with_is_refunded true sale]>)
  else mret ().

(** The order branch of [Refund.save] (models.py:226-244). *)
Definition Refund_apply_to_order (r : Refund) (oid : nat) : Tx unit :=
  order ← load "Order" orders oid;
  total_amount ← float_isub (o_total_amount order)
                   (r_refund_amount_type r) (r_refund_amount r);
  let order := order_with_total total_amount order in
  modify_db (set_orders <[oid := order]>);;
  db ← get_db;
  let remaining_items := Order_get_items_quantity oid db in
  let refunded := refunded_items oid db in
  (if refunded >=? remaining_items
   then modify_db (set_orders <[oid := order_with_status "Cancelled" order]>)
   else mret ());;
  product ← load "Product" products (r_product r);
  let product := with_quantity (p_quantity product + r_quantity r) product in
  modify_db (set_products <[r_product r := product]>).

(** [self.refund_type == ty and self.<target>] *)
Definition typed_target (r : Refund) (ty : string) (target : option nat) : option nat :=
  if decide (r_refund_type r = ty) then target else None.

(** The body of the atomic block of [Refund.save] (models.py:203-244):
    [super().save()] inserts the refund, then one of the two branches, or
    neither, runs. *)
Definition Refund_effects (r : Refund) : Tx unit :=
  modify_db (set_refunds (λ rs, rs ++ [r]));;
  match typed_target r "Sale" (r_sale r) with
  | Some sid => Refund_apply_to_sale r sid
  | None =>
      match typed_target r "Order" (r_order r) with
      | Some oid => Refund_apply_to_order r oid
      | None => mret ()
      end
  end.

(** [Refund.save] for a new refund. *)
Definition Refund_save (r : Refund) : Tx unit :=
  Refund_clean r;;
  atomic (Refund_effects r).

(** ** Transaction ledger (serializers.py:224-292) *)

Definition InsufficientStock (product : Product) : Error :=
  ValidationError ("Insufficient stock for " +:+ p_name product).

(** A validated sale line: [item_data['product']] is the Product instance
    the related field loaded while validating the request (its primary key
    and the row as read then), [item_data['quantity']] the quantity asked
    for.  Every line carries an instance of its own. *)
Record SaleItemData := mkSaleItemData {
  sd_product_pk : nat;
  sd_product : Product;
  sd_quantity : Z
}.

Record SaleData := mkSaleData {
  sd_shop : nat;
  sd_attendant : option nat;
  sd_mode_of_payment : string;
  sd_is_complete : bool;
  sd_items : list SaleItemData
}.

(** The loop of [SaleSerializer.create] (serializers.py:269-286). *)
Fixpoint sale_lines (sale : nat) (items_data : list SaleItemData) (total : Z) : Tx Z :=
  match items_data with
  | [] => mret total
  | item_data :: rest =>
      let product := sd_product item_data in
      let quantity := sd_quantity item_data in
      if p_quantity product <? quantity
      then mthrow (InsufficientStock product)
      else
        modify_db (set_sale_items (λ rows, rows ++
          [mkSaleItem sale (sd_product_pk item_data) quantity (p_price product)]));;
        let product := with_quantity (p_quantity product - quantity) product in
        modify_db (set_products <[sd_product_pk item_data := product]>);;
        sale_lines sale rest (total + p_price product * quantity)
  end.

(** [Sale.objects.create] called with [validated_data] unpacked as its
    keyword arguments (serializers.py:265).  The
    items were read with [validated_data.get('items')], so the key [items]
    is still in [validated_data]; it is no field of Sale, and the model
    constructor raises. *)
Definition Sale_unexpected_items : Error :=
  TypeError "Sale() got unexpected keyword arguments: 'items'".

Definition Sale_objects_create (validated_data : SaleData) : Tx nat :=
  mthrow Sale_unexpected_items.

(** [SaleSerializer.create]; the result is the primary key of the sale.
    [sd_items] is [validated_data.get('items')], the empty list also when
    the key is absent. *)
Definition SaleSerializer_create (validated_data : SaleData) : Tx nat :=
  match sd_items validated_data with
  | [] => mthrow (ValidationError "This sale must include at least one item.")
  | items_data =>
      atomic (
        pk ← Sale_objects_create validated_data;
        total ← sale_lines pk items_data 0;
        sale ← load "Sale" sales pk;
        modify_db (set_sales <[pk := sale_with_total total sale]>);;
        mret pk)
  end.

(** A validated order line: [item_data['id']] and [item_data['quantity']]. *)
Record OrderItemData := mkOrderItemData {
  od_id : nat;
  od_quantity : Z
}.

Record OrderData := mkOrderData {
  od_shop : nat;
  od_customer_name : string;
  od_status : string;
  od_items : list OrderItemData
}.

(** [OrderItemSerializer.validate] (serializers.py:197-200). *)
Definition OrderItemSerializer_validate (data : OrderItemData) : Error + OrderItemData :=
  if od_quantity data <=? 0
  then inl (ValidationError "Quantity must be greater than 0.")
  else inr data.

(** [OrderItem.objects.create(order=order, item=product,
    quantity=quantity)] (serializers.py:234).  OrderItem has the fields
    order, product and quantity (models.py:133-136) and none called
    [item]: the model constructor raises. *)
Definition OrderItem_unexpected_item : Error :=
  TypeError "OrderItem() got unexpected keyword arguments: 'item'".

Definition OrderItem_objects_create (order product : nat) (quantity : Z) : Tx unit :=
  mthrow OrderItem_unexpected_item.

(** The loop of [OrderSerializer.create] (serializers.py:229-237). *)
Fixpoint order_lines (order : nat) (items_data : list OrderItemData) (total : Z) : Tx Z :=
  match items_data with
  | [] => mret total
  | item_data :: rest =>
      product ← load "Product" products (od_id item_data);
      let quantity := od_quantity item_data in
      if p_quantity product <? quantity
      then mthrow (InsufficientStock product)
      else
        OrderItem_objects_create order (od_id item_data) quantity;;
        let product := with_quantity (p_quantity product - quantity) product in
        modify_db (set_products <[od_id item_data := product]>);;
        order_lines order rest (total + p_price product * quantity)
  end.

(** [OrderSerializer.create]; the result is the primary key of the order. *)
Definition OrderSerializer_create (validated_data : OrderData) : Tx nat :=
  atomic (
    db ← get_db;
    let pk := next_pk (orders db) in
    let order := mkOrder (od_shop validated_data) (od_customer_name validated_data) 0
                   (od_status validated_data) in
    modify_db (set_orders <[pk := order]>);;
    total ← order_lines pk (od_items validated_data) 0;
    modify_db (set_orders <[pk := order_with_total total order]>);;
    mret pk).

(** ** Approval workflow (models.py:309-324, views.py:531-545) *)

(** [self.get_object()] of the approval-request view set. *)
Definition get_approval_request (pk : nat) : Tx ApprovalRequest :=
  db ← get_db;
  match approval_requests db !! pk with
  | Some a => mret a
  | None => mthrow (DoesNotExist "ApprovalRequest")
  end.

(** [send_notification(user, title, message)] as the approval views call
    it (views.py:539, 555): the function has five parameters without
    defaults (views.py:570-576), two are not given. *)
Definition send_notification_missing_arguments : Error :=
  TypeError "send_notification() missing 2 required positional arguments: 'notification_type' and 'type_id'".

Definition send_notification_short : Tx unit :=
  mthrow send_notification_missing_arguments.

(** [ApprovalRequestViewSet.approve]: [actor] is [request.user].  The
    status is saved before the notification is attempted. *)
Definition ApprovalRequestViewSet_approve (actor pk : nat) : Tx unit :=
  approval_request ← get_approval_request pk;
  modify_db (set_approval_requests
    <[pk := request_with_status "approved" approval_request]>);;
  send_notification_short.

(** [self.admin.role] (models.py:315): [self.admin] is a
    [django.contrib.auth.models.User], and the role is a field of Profile
    (models.py:48), not of User. *)
Definition User_has_no_role : Error :=
  AttributeError "'User' object has no attribute 'role'".

Definition User_role (user : nat) : Tx string :=
  mthrow User_has_no_role.

(** [ApprovalRequest.approve_seller], on the request stored under [pk]. *)
Definition ApprovalRequest_approve_seller (pk : nat) : Tx unit :=
  self ← get_approval_request pk;
  if decide (a_request_type self ≠ "Seller")
  then mthrow (ValidationError "This is not a Seller approval request.")
  else
    role ← User_role (a_admin self);
    if decide (role ≠ "SuperUser")
    then mthrow (ValidationError "Only SuperUser can approve Seller requests.")
    else
      profile ← load "Profile" profiles (a_admin self);
      modify_db (set_profiles <[a_admin self := profile_with_role "Admin" profile]>);;
      modify_db (set_approval_requests <[pk := request_with_phase "Completed" self]>).

(** ** Sequences of ledger operations *)

Inductive Op :=
  | OpSale (validated_data : SaleData)
  | OpOrder (validated_data : OrderData)
  | OpRefund (r : Refund).

(** The store after one operation, whether it succeeded or raised. *)
Definition step (db : DB) (op : Op) : DB :=
  match op with
  | OpSale vd => (SaleSerializer_create vd db).2
  | OpOrder vd => (OrderSerializer_create vd db).2
  | OpRefund r => (Refund_save r db).2
  end.

Definition run (db : DB) (ops : list Op) : DB := foldl step db ops.

(** ** Predicates and derived rows used in the statements *)

(** The sale row after a refund against it. *)
Definition sale_after_refund (r : Refund) (s : Sale) : Sale :=
  let total := s_total_amount s - r_refund_amount r in
  let refunded := s_total_refunded_amount s + r_refund_amount r in
  mkSale (s_shop s) (s_attendant s) total (s_mode_of_payment s) (s_is_complete s)
         (if refunded >=? total then true else s_is_refunded s) refunded.

(** The order row after a refund against it, in a store where the refund
    is already inserted. *)
Definition order_after_refund (r : Refund) (oid : nat) (db : DB) (o : Order) : Order :=
  mkOrder (o_shop o) (o_customer_name o) (o_total_amount o - r_refund_amount r)
          (if refunded_items oid db + r_quantity r >=? Order_get_items_quantity oid db
           then "Cancelled" else o_status o).

Definition restock (r : Refund) (p : Product) : Product :=
  with_quantity (p_quantity p + r_quantity r) p.

Definition stock_nonneg (db : DB) : Prop :=
  map_Forall (λ _ p, 0 ≤ p_quantity p) (products db).

(** What the field types promise of an operation's input: a refund's
    quantity is a PositiveIntegerField. *)
Definition op_wellformed (op : Op) : Prop :=
  match op with
  | OpRefund r => 0 ≤ r_quantity r
  | _ => True
  end.

(** ** Stores and requests used as instances *)

Definition db_lowercase_approval : DB :=
  mkDB ∅ {[ 1%nat := mkProduct "shirt" 10 5 ]} ∅ []
       {[ 7%nat := mkSale 1 None 100 "Cash" true false 0 ]} [] []
       [mkApprovalRequest "Refund" 2 1 "approved" "Pending" None None;
        mkApprovalRequest "Seller" 2 1 "Approved" "Pending" None None;
        mkApprovalRequest "Refund" 2 3 "Approved" "Pending" None None].

Definition refund_30_of_sale_7 : Refund :=
  mkRefund 1 "Sale" (Some 7%nat) None 1 3 30 "wrong size" PyInt.

Definition db_one_approval : DB :=
  mkDB ∅ {[ 1%nat := mkProduct "shirt" 10 5 ]} ∅ []
       {[ 7%nat := mkSale 1 None 100 "Cash" true false 0 ]} [] []
       [mkApprovalRequest "Refund" 2 1 "Approved" "Pending" None None].

Definition refund_31_for_3_shirts : Refund :=
  mkRefund 1 "Sale" (Some 7%nat) None 1 3 31 "" PyInt.

Definition refund_70_of_sale_7 : Refund :=
  mkRefund 1 "Sale" (Some 7%nat) None 1 7 70 "changed mind" PyInt.

Definition db_order_3_and_2 : DB :=
  mkDB ∅ {[ 1%nat := mkProduct "shirt" 10 0; 2%nat := mkProduct "scarf" 4 1 ]}
       {[ 4%nat := mkOrder 1 "Amina" 38 "Pending" ]}
       [mkOrderItem 4 1 3; mkOrderItem 4 2 2] ∅ [] []
       [mkApprovalRequest "Refund" 2 1 "Approved" "Pending" None None].

(** User 1 is a SuperUser and filed the Seller request for user 2, a
    Customer; user 3 is an Attendant. *)
Definition seller_request : ApprovalRequest :=
  mkApprovalRequest "Seller" 1 1 "Pending" "Pending" None (Some 2%nat).

Definition db_seller_request : DB :=
  mkDB {[ 1%nat := mkProfile None "SuperUser";
          2%nat := mkProfile None "Customer";
          3%nat := mkProfile (Some 1%nat) "Attendant" ]}
       ∅ ∅ [] ∅ [] [] [seller_request].

Definition db_shop : DB :=
  mkDB ∅ {[ 1%nat := mkProduct "shirt" 10 5; 2%nat := mkProduct "scarf" 4 1 ]}
       ∅ [] ∅ [] []
       [mkApprovalRequest "Refund" 2 1 "Approved" "Pending" None None].

Definition ops_of_a_day : list Op :=
  [OpSale (mkSaleData 1 (Some 3%nat) "Cash" true
             [mkSaleItemData 1 (mkProduct "shirt" 10 5) 5]);
   OpOrder (mkOrderData 1 "Amina" "Pending"
              [mkOrderItemData 2 1; mkOrderItemData 1 1]);
   OpRefund (mkRefund 1 "Sale" (Some 0%nat) None 1 2 20 "" PyInt);
   OpOrder (mkOrderData 1 "Amina" "Pending" [mkOrderItemData 1 2])].

Definition sale_over_stock : SaleData :=
  mkSaleData 1 (Some 3%nat) "Cash" true
    [mkSaleItemData 1 (mkProduct "shirt" 10 5) 5;
     mkSaleItemData 2 (mkProduct "scarf" 4 1) 2].

Definition order_over_stock : OrderData :=
  mkOrderData 1 "Amina" "Pending" [mkOrderItemData 1 2; mkOrderItemData 2 5].


Definition order_of_2_shirts : OrderData :=
  mkOrderData 1 "Amina" "Pending" [mkOrderItemData 1 2].

(** ** Reporting, approval and profile code beside the ledger *)

(** [Sale.get_items_quantity] (models.py:155). *)
Definition Sale_get_items_quantity (sid : nat) (db : DB) : Z :=
  Zsum (si_quantity <$> filter (λ it, si_sale it = sid) (sale_items db)).

(** [self.sale_set.all()] and [self.order_set.all()] of a shop, as
    (primary key, row) pairs. *)
Definition Shop_sale_set (shop : nat) (db : DB) : list (nat * Sale) :=
  filter (λ kv, s_shop kv.2 = shop) (map_to_list (sales db)).
Definition Shop_order_set (shop : nat) (db : DB) : list (nat * Order) :=
  filter (λ kv, o_shop kv.2 = shop) (map_to_list (orders db)).

(** [Shop.get_total_sales] (models.py:26-29). *)
Definition Shop_get_total_sales (shop : nat) (db : DB) : Z :=
  let total_sales :=
    Zsum ((λ kv, Sale_get_items_quantity kv.1 db) <$> Shop_sale_set shop db) in
  total_sales
  + Zsum ((λ kv, Order_get_items_quantity kv.1 db) <$> Shop_order_set shop db).

(** [ApprovalRequest.approve_refund] (models.py:297-307), on the request
    stored under [pk]. *)
Definition ApprovalRequest_approve_refund (pk : nat) : Tx unit :=
  self ← get_approval_request pk;
  if decide (a_request_type self ≠ "Refund")
  then mthrow (ValidationError "This is not a Refund approval request.")
  else
    if decide (a_status self ≠ "Approved")
    then mthrow (ValidationError "Refund request is not approved by an admin.")
    else modify_db (set_approval_requests
           <[pk := request_with_status "Approved" self]>).

(** [ApprovalRequestViewSet.reject] (views.py:547-561). *)
Definition ApprovalRequestViewSet_reject (actor pk : nat) : Tx unit :=
  approval_request ← get_approval_request pk;
  modify_db (set_approval_requests
    <[pk := request_with_status "rejected" approval_request]>);;
  send_notification_short.

(** A Profile instance in memory (models.py:39-51): [pi_pk] is [None]
    until the instance has been stored. *)
Record ProfileInstance := mkProfileInstance {
  pi_pk : option nat;
  pi_shop : option nat;
  pi_role : string;
  pi_first_login : bool
}.

(** [Profile.save] (models.py:55-62).  The result is the [ValueError]
    message, or the instance as [super().save()] stores it, under its own
    primary key or, for a new instance, under [new_pk]. *)
Definition Profile_save (new_pk : nat) (self : ProfileInstance)
    : string + ProfileInstance :=
  let first_login :=
    if decide (pi_pk self = None ∧ pi_role self = "Attendant") then true else false in
  if decide (pi_role self = "Attendant" ∧ pi_shop self = None)
  then inl "Attendants must be assigned to a shop."
  else inr (mkProfileInstance (Some (default new_pk (pi_pk self)))
              (pi_shop self) (pi_role self) first_login).

(** ** Further stores and requests used as instances *)

Definition refund_of_missing_sale : Refund :=
  mkRefund 1 "Sale" (Some 8%nat) None 1 3 30 "" PyInt.

Definition db_after_refund_30 : DB :=
  (Refund_save refund_30_of_sale_7 db_one_approval).2.

Definition sale_without_items : SaleData := mkSaleData 1 (Some 3%nat) "Cash" true [].

Definition order_without_items : OrderData := mkOrderData 1 "Amina" "Pending" [].

Definition order_of_unknown_product : OrderData :=
  mkOrderData 1 "Amina" "Pending" [mkOrderItemData 1 1; mkOrderItemData 9 1].

Definition db_cancelled_order : DB :=
  mkDB ∅ {[ 1%nat := mkProduct "shirt" 10 3; 2%nat := mkProduct "scarf" 4 3 ]}
       {[ 4%nat := mkOrder 1 "Amina" 0 "Cancelled" ]}
       [mkOrderItem 4 1 3; mkOrderItem 4 2 2] ∅ []
       [mkRefund 1 "Order" None (Some 4%nat) 1 3 30 "" PyInt;
        mkRefund 1 "Order" None (Some 4%nat) 2 2 8 "" PyInt]
       [mkApprovalRequest "Refund" 2 1 "Approved" "Pending" None None].

Definition ops_after_cancellation : list Op :=
  [OpRefund (mkRefund 1 "Order" None (Some 4%nat) 1 1 10 "" PyInt);
   OpOrder (mkOrderData 1 "Amina" "Pending" [mkOrderItemData 1 2]);
   OpSale (mkSaleData 1 None "Cash" true
             [mkSaleItemData 2 (mkProduct "scarf" 4 3) 1])].

Definition ops_on_sale_7 : list Op :=
  [OpRefund refund_30_of_sale_7;
   OpSale (mkSaleData 1 None "Cash" true
             [mkSaleItemData 1 (mkProduct "shirt" 10 8) 2]);
   OpRefund refund_70_of_sale_7;
   OpRefund refund_31_for_3_shirts].

Definition new_attendant : ProfileInstance :=
  mkProfileInstance None (Some 1%nat) "Attendant" false.

(** ** Instances for the paths that raise *)

(** The refund of 30 against sale 7 as the refund serializer builds it:
    the amount is a Decimal. *)
Definition refund_30_of_sale_7_from_request : Refund :=
  mkRefund 1 "Sale" (Some 7%nat) None 1 3 30 "wrong size" PyDecimal.

Definition refund_of_order_4_first : Refund :=
  mkRefund 1 "Order" None (Some 4%nat) 1 2 20 "" PyInt.
Definition refund_of_order_4_second : Refund :=
  mkRefund 1 "Order" None (Some 4%nat) 2 2 8 "" PyInt.
Definition refund_of_order_4_third : Refund :=
  mkRefund 1 "Order" None (Some 4%nat) 1 1 10 "" PyInt.

Definition refund_of_order_4_from_request : Refund :=
  mkRefund 1 "Order" None (Some 4%nat) 1 2 20 "" PyDecimal.

(** A refund of type Sale that names neither a sale nor an order, built
    by the serializer. *)
Definition refund_of_no_sale : Refund :=
  mkRefund 1 "Sale" None None 1 2 20 "" PyDecimal.

Definition order_over_stock_in_first_line : OrderData :=
  mkOrderData 1 "Amina" "Pending" [mkOrderItemData 2 5; mkOrderItemData 1 2].

(** ** Stepping through handlers *)

Ltac tx_unfold :=
  unfold mbind, Tx_bind, mret, Tx_ret, mthrow, Tx_throw,
         get_db, modify_db, load, atomic in *.

Ltac tx_simpl := repeat (progress (tx_unfold; simpl in *)).

Ltac tx_cases :=
  repeat (tx_simpl;
          match goal with
          | H : (_, _) = (_, _) |- _ => injection H as ? ?; subst
          | H : context [match ?x with _ => _ end] |- _ => destruct x eqn:?
          | H : context [if ?b then _ else _] |- _ => destruct b eqn:?
          | H : inl _ = inr _ |- _ => discriminate H
          | H : inr _ = inl _ |- _ => discriminate H
          end).

(** * Properties *)

Lemma approved_refund_request_None shop db :
  approved_refund_request shop db = None ↔
  Forall (λ a, ¬ is_approved_refund_request shop a) (approval_requests db).
Proof.
  unfold approved_refund_request.
  induction (approval_requests db) as [|a l IH]; simpl.
  - split; [constructor | done].
  - rewrite filter_cons. destruct (decide (is_approved_refund_request shop a)) as [Ha|Ha].
    + split; [done |]. intros H. inversion H; subst. contradiction.
    + rewrite IH. split.
      * intros H. by constructor.
      * intros H. by inversion H.
Qed.

Lemma approved_refund_request_Some shop db :
  is_Some (approved_refund_request shop db) ↔
  Exists (is_approved_refund_request shop) (approval_requests db).
Proof.
  unfold approved_refund_request.
  induction (approval_requests db) as [|a l IH]; simpl.
  - split; [intros [? ?]; done | intros H; inversion H].
  - rewrite filter_cons. destruct (decide (is_approved_refund_request shop a)) as [Ha|Ha].
    + split; [by constructor | by eexists].
    + rewrite IH. split.
      * intros H. by apply Exists_cons_tl.
      * intros H. inversion H; [contradiction | done].
Qed.

(** [Refund.clean] never writes. *)
Lemma Refund_clean_readonly r db : (Refund_clean r db).2 = db.
Proof.
  unfold Refund_clean. tx_simpl.
  destruct (approved_refund_request (r_shop r) db); [|done].
  destruct (products db !! r_product r); [|done].
  by destruct (_ <? _).
Qed.

Lemma Refund_clean_ok r db p :
  Exists (is_approved_refund_request (r_shop r)) (approval_requests db) →
  products db !! r_product r = Some p →
  r_refund_amount r ≤ p_price p * r_quantity r →
  Refund_clean r db = (inr (), db).
Proof.
  intros Ha Hp Hle. apply approved_refund_request_Some in Ha as [a Ha].
  unfold Refund_clean. tx_simpl. rewrite Ha, Hp.
  destruct (Z.ltb_spec (p_price p * r_quantity r) (r_refund_amount r)); [lia | done].
Qed.

Lemma Refund_clean_ok_inv r db u db' :
  Refund_clean r db = (inr u, db') →
  Exists (is_approved_refund_request (r_shop r)) (approval_requests db) ∧
  ∃ p, products db !! r_product r = Some p ∧
       r_refund_amount r ≤ p_price p * r_quantity r.
Proof.
  unfold Refund_clean. tx_simpl.
  destruct (approved_refund_request (r_shop r) db) as [a|] eqn:Ha; [|done].
  destruct (products db !! r_product r) as [p|]; [|done].
  destruct (Z.ltb_spec (p_price p * r_quantity r) (r_refund_amount r)); [done|].
  intros _. split; [apply approved_refund_request_Some; by eexists | eauto].
Qed.

(** ** Refund rejection *)

(** C3: when no ApprovalRequest of type Refund for the refund's shop has
    status Approved, saving the refund raises NotApproved and the store is
    exactly the store before the call: the sale or order, the product stock
    and the Refund table are untouched, and nothing was written before the
    check. *)
Theorem C3_unapproved_refund_rejected (r : Refund) (db : DB) :
  Forall (λ a, ¬ (a_request_type a = "Refund" ∧ a_shop a = r_shop r ∧
                  a_status a = "Approved")) (approval_requests db) →
  Refund_save r db = (inl NotApproved, db).
Proof.
  intros H.
  assert (approved_refund_request (r_shop r) db = None) as Hnone.
  { apply approved_refund_request_None. eapply Forall_impl; [exact H|].
    intros a Ha [? [? ?]]. by apply Ha. }
  unfold Refund_save, Refund_clean. tx_simpl. by rewrite Hnone.
Qed.

Lemma C3_unapproved_refund_rejected_witness :
  Refund_save refund_30_of_sale_7 db_lowercase_approval
  = (inl NotApproved, db_lowercase_approval).
Proof.
  apply C3_unapproved_refund_rejected.
  repeat constructor; simpl; intros [? [? ?]]; discriminate.
Defined.

(** C4 (as amended): with an Approved Refund request for the shop in place,
    a refund whose amount exceeds the product's price times the refunded
    quantity raises ExcessiveRefund and the store is exactly the store
    before the call: no Refund row, no change to totals or stock. *)
Theorem C4_excessive_refund_rejected (r : Refund) (db : DB) (p : Product) :
  Exists (is_approved_refund_request (r_shop r)) (approval_requests db) →
  products db !! r_product r = Some p →
  p_price p * r_quantity r < r_refund_amount r →
  Refund_save r db = (inl ExcessiveRefund, db).
Proof.
  intros Ha Hp Hlt. apply approved_refund_request_Some in Ha as [a Ha].
  unfold Refund_save, Refund_clean. tx_simpl. rewrite Ha, Hp.
  destruct (Z.ltb_spec (p_price p * r_quantity r) (r_refund_amount r)); [done | lia].
Qed.

Lemma C4_excessive_refund_rejected_witness :
  Refund_save refund_31_for_3_shirts db_one_approval
  = (inl ExcessiveRefund, db_one_approval).
Proof.
  apply (C4_excessive_refund_rejected _ _ (mkProduct "shirt" 10 5)).
  - constructor. by vm_compute.
  - reflexivity.
  - simpl. lia.
Defined.

(** C4 as stated fails: the approval check comes first, so an excessive
    refund for a shop without an Approved request raises NotApproved, not
    ExcessiveRefund. *)
Lemma C4_counterexample :
  products db_lowercase_approval !! r_product refund_31_for_3_shirts
    = Some (mkProduct "shirt" 10 5) ∧
  10 * r_quantity refund_31_for_3_shirts < r_refund_amount refund_31_for_3_shirts ∧
  Refund_save refund_31_for_3_shirts db_lowercase_approval
    = (inl NotApproved, db_lowercase_approval) ∧
  NotApproved ≠ ExcessiveRefund.
Proof.
  split; [reflexivity |]. split; [simpl; lia |].
  split; [by vm_compute | discriminate].
Qed.

(** ** Refund application *)

Lemma Zsum_app l1 l2 : Zsum (l1 ++ l2) = Zsum l1 + Zsum l2.
Proof. unfold Zsum. induction l1 as [|x l1 IH]; simpl; lia. Qed.

Lemma Refund_save_effects r db :
  Refund_clean r db = (inr (), db) →
  Refund_save r db = atomic (Refund_effects r) db.
Proof. intros H. unfold Refund_save. unfold mbind at 1, Tx_bind. by rewrite H. Qed.

Lemma refunded_items_snoc oid db db' r :
  r_order r = Some oid →
  refunds db' = refunds db ++ [r] →
  refunded_items oid db' = refunded_items oid db + r_quantity r.
Proof.
  intros H Hdb'. unfold refunded_items. rewrite Hdb'.
  rewrite filter_app, fmap_app, Zsum_app. f_equal.
  rewrite filter_cons, decide_True by done. rewrite filter_nil.
  unfold Zsum; simpl. lia.
Qed.

(** The three ways the atomic block of [Refund.save] can end well. *)
Lemma Refund_effects_cases r db db' :
  Refund_effects r db = (inr (), db') →
  (∃ sid s p,
     typed_target r "Sale" (r_sale r) = Some sid ∧
     sales db !! sid = Some s ∧ products db !! r_product r = Some p ∧
     db' = mkDB (profiles db) (<[r_product r := restock r p]> (products db))
                (orders db) (order_items db)
                (<[sid := sale_after_refund r s]> (sales db)) (sale_items db)
                (refunds db ++ [r]) (approval_requests db)) ∨
  (∃ oid o p,
     typed_target r "Sale" (r_sale r) = None ∧
     typed_target r "Order" (r_order r) = Some oid ∧
     orders db !! oid = Some o ∧ products db !! r_product r = Some p ∧
     db' = mkDB (profiles db) (<[r_product r := restock r p]> (products db))
                (<[oid := order_after_refund r oid db o]> (orders db))
                (order_items db) (sales db) (sale_items db)
                (refunds db ++ [r]) (approval_requests db)) ∨
  (typed_target r "Sale" (r_sale r) = None ∧
   typed_target r "Order" (r_order r) = None ∧
   db' = set_refunds (λ rs, rs ++ [r]) db).
Proof.
  unfold Refund_effects. intros H.
  destruct (typed_target r "Sale" (r_sale r)) as [sid|] eqn:Hs.
  - left. unfold Refund_apply_to_sale, float_isub, decimal_iadd in H. tx_simpl.
    destruct (sales db !! sid) as [s|] eqn:Hsale; simpl in H; [|discriminate].
    destruct (r_refund_amount_type r); simpl in H; try discriminate.
    destruct (products db !! r_product r) as [p|] eqn:Hp; simpl in H; [|discriminate].
    exists sid, s, p. repeat split; try done.
    unfold sale_after_refund, restock, set_sales, set_products, set_refunds in *;
      simpl in *.
    destruct (_ >=? _); simpl in H; injection H as <-; [|done].
    by rewrite insert_insert_eq.
  - destruct (typed_target r "Order" (r_order r)) as [oid|] eqn:Ho.
    + right; left. unfold Refund_apply_to_order, float_isub in H. tx_simpl.
      destruct (orders db !! oid) as [o|] eqn:Horder; simpl in H; [|discriminate].
      assert (r_order r = Some oid) as Hord.
      { unfold typed_target in Ho. by case_decide. }
      exists oid, o.
      unfold order_after_refund, restock, set_orders, set_products, set_refunds in *;
        simpl in *.
      destruct (r_refund_amount_type r); simpl in H; try discriminate;
        unfold Order_get_items_quantity at 1 in H; simpl in H;
        fold (Order_get_items_quantity oid db) in H;
        erewrite (refunded_items_snoc oid db) in H by (done || reflexivity);
        (destruct (_ >=? _); simpl in H;
         (destruct (products db !! r_product r) as [p|] eqn:Hp; simpl in H;
          [|discriminate]); injection H as <-; exists p; repeat split; try done;
         by rewrite insert_insert_eq).
    + right; right. tx_simpl. by injection H as <-.
Qed.

Lemma Refund_effects_inv r db u db' :
  Refund_effects r db = (inr u, db') →
  refunds db' = refunds db ++ [r] ∧
  approval_requests db' = approval_requests db ∧
  profiles db' = profiles db ∧
  order_items db' = order_items db ∧
  sale_items db' = sale_items db ∧
  (products db' = products db ∨
   ∃ p, products db !! r_product r = Some p ∧
        products db' = <[r_product r := restock r p]> (products db)).
Proof.
  destruct u. intros H.
  apply Refund_effects_cases in H
    as [(sid & s & p & _ & _ & Hp & ->)|
        [(oid & o & p & _ & _ & _ & Hp & ->)|(_ & _ & ->)]];
    simpl; repeat split; eauto.
Qed.

Lemma Refund_save_inv r db :
  (∃ e, Refund_save r db = (inl e, db)) ∨
  (∃ db', Refund_save r db = (inr (), db') ∧
          Exists (is_approved_refund_request (r_shop r)) (approval_requests db) ∧
          Refund_effects r db = (inr (), db')).
Proof.
  unfold Refund_save. unfold mbind, Tx_bind.
  pose proof (Refund_clean_readonly r db) as Hro.
  destruct (Refund_clean r db) as [[e|[]] db1] eqn:Hclean; simpl in Hro; subst db1.
  - left. by exists e.
  - apply Refund_clean_ok_inv in Hclean as [Ha _].
    unfold atomic. destruct (Refund_effects r db) as [[e|[]] db'] eqn:Heff.
    + left. by exists e.
    + right. exists db'. by repeat split.
Qed.

(** ** Refunds against a sale or an order *)

(** C1, evaluated where the code departs from it.  The refund of 30
    against a sale of 100, approved and within the item value, as the
    refund serializer hands it to [Refund.save]: the amount is a Decimal,
    [sale.total_amount -= self.refund_amount] raises TypeError, and the
    store, the sale included, is as before.  The same refund with the
    amount as an int goes through and gives 70 / 30 / not refunded, and a
    further one of 70 gives 0 / 100 / refunded. *)
Theorem C1_sale_refund_at_failing_input :
  Refund_save refund_30_of_sale_7_from_request db_one_approval
    = (inl float_isub_Decimal, db_one_approval) ∧
  ∃ db1 db2,
    Refund_save refund_30_of_sale_7 db_one_approval = (inr (), db1) ∧
    sales db1 !! 7%nat = Some (mkSale 1 None 70 "Cash" true false 30) ∧
    Refund_save refund_70_of_sale_7 db1 = (inr (), db2) ∧
    sales db2 !! 7%nat = Some (mkSale 1 None 0 "Cash" true true 100).
Proof.
  split; [by vm_compute|]. eexists _, _.
  split; [by vm_compute|]. split; [by vm_compute|].
  split; by vm_compute.
Qed.

(** C2, evaluated where the code departs from it.  A refund against an
    order, approved and within the item value, as the refund serializer
    hands it to [Refund.save]: the amount is a Decimal,
    [order.total_amount -= self.refund_amount] raises TypeError, and the
    store, the order included, is as before.  With the amounts as ints,
    refunds of 2, 2 and 1 units against the order with lines of 3 and 2
    units go through; the order is Pending after the first two and
    Cancelled after the third. *)
Theorem C2_order_refund_at_failing_input :
  Refund_save refund_of_order_4_from_request db_order_3_and_2
    = (inl float_isub_Decimal, db_order_3_and_2) ∧
  Order_get_items_quantity 4 db_order_3_and_2 = 5 ∧
  ∃ db1 db2 db3,
    Refund_save refund_of_order_4_first db_order_3_and_2 = (inr (), db1) ∧
    orders db1 !! 4%nat = Some (mkOrder 1 "Amina" 18 "Pending") ∧
    refunded_items 4 db1 = 2 ∧
    Refund_save refund_of_order_4_second db1 = (inr (), db2) ∧
    orders db2 !! 4%nat = Some (mkOrder 1 "Amina" 10 "Pending") ∧
    refunded_items 4 db2 = 4 ∧
    Refund_save refund_of_order_4_third db2 = (inr (), db3) ∧
    orders db3 !! 4%nat = Some (mkOrder 1 "Amina" 0 "Cancelled") ∧
    refunded_items 4 db3 = 5.
Proof.
  split; [by vm_compute|]. split; [reflexivity|]. eexists _, _, _.
  repeat (split; [by vm_compute|]). by vm_compute.
Qed.

(** C10: a refund saved with type Sale and no sale, or with type Order
    and no order, is added to the Refund table and that is the only
    change: the store afterwards is the store before with the refund
    appended; no total, flag, status or stock moves. *)
Theorem C10_untargeted_refund_only_persists (r : Refund) (db db' : DB) :
  Refund_save r db = (inr (), db') →
  (r_refund_type r = "Sale" ∧ r_sale r = None) ∨
  (r_refund_type r = "Order" ∧ r_order r = None) →
  db' = mkDB (profiles db) (products db) (orders db) (order_items db)
             (sales db) (sale_items db) (refunds db ++ [r])
             (approval_requests db).
Proof.
  intros Hsave Hcase.
  destruct (Refund_save_inv r db) as [[e He]|(db1 & H1 & _ & Heff)];
    [rewrite He in Hsave; discriminate|].
  rewrite H1 in Hsave. injection Hsave as ->.
  assert (typed_target r "Sale" (r_sale r) = None ∧
          typed_target r "Order" (r_order r) = None) as [Hs Ho].
  { unfold typed_target. destruct Hcase as [[Hty Hnone]|[Hty Hnone]];
      rewrite Hty, ?Hnone; split; by repeat case_decide. }
  apply Refund_effects_cases in Heff
    as [(sid & s & p & Ht & _)|[(oid & o & p & _ & Ht & _)|(_ & _ & ->)]];
    [congruence | congruence | done].
Qed.

Lemma C10_untargeted_refund_only_persists_witness :
  (Refund_save refund_of_no_sale db_one_approval).2
  = mkDB (profiles db_one_approval) (products db_one_approval)
         (orders db_one_approval) (order_items db_one_approval)
         (sales db_one_approval) (sale_items db_one_approval)
         (refunds db_one_approval ++ [refund_of_no_sale])
         (approval_requests db_one_approval).
Proof.
  apply (C10_untargeted_refund_only_persists refund_of_no_sale db_one_approval).
  - by vm_compute.
  - left. split; reflexivity.
Defined.

(** ** What a saved refund can and cannot touch *)

(** C9 (as amended): a refund is persisted only when an Approved
    Refund-type ApprovalRequest exists for its shop, and saving it leaves
    every approval request as it was; the approval is not used up, so it
    admits the next refund of the shop as well. *)
Theorem C9_approval_gates_but_is_not_consumed (r : Refund) (db db' : DB) :
  Refund_save r db = (inr (), db') →
  Exists (is_approved_refund_request (r_shop r)) (approval_requests db) ∧
  refunds db' = refunds db ++ [r] ∧
  approval_requests db' = approval_requests db ∧
  Exists (is_approved_refund_request (r_shop r)) (approval_requests db').
Proof.
  intros Hsave. destruct (Refund_save_inv r db) as [[e He]|(db1 & H1 & Ha & Heff)].
  - rewrite He in Hsave. discriminate.
  - rewrite H1 in Hsave. injection Hsave as ->.
    apply Refund_effects_inv in Heff as (Hr & Has & _).
    rewrite Has. done.
Qed.

Lemma C9_approval_gates_but_is_not_consumed_witness :
  Exists (is_approved_refund_request 1) (approval_requests db_one_approval) ∧
  refunds (Refund_save refund_30_of_sale_7 db_one_approval).2
    = refunds db_one_approval ++ [refund_30_of_sale_7] ∧
  approval_requests (Refund_save refund_30_of_sale_7 db_one_approval).2
    = approval_requests db_one_approval ∧
  Exists (is_approved_refund_request 1)
    (approval_requests (Refund_save refund_30_of_sale_7 db_one_approval).2).
Proof.
  apply (C9_approval_gates_but_is_not_consumed refund_30_of_sale_7 db_one_approval
           (Refund_save refund_30_of_sale_7 db_one_approval).2).
  vm_compute. reflexivity.
Defined.

(** C9 as stated fails: one Approved Refund request, two refunds saved
    against it, both persisted. *)
Lemma C9_counterexample :
  ∃ db1 db2,
    length (filter (λ a, a_request_type a = "Refund" ∧ a_status a = "Approved")
                   (approval_requests db_one_approval)) = 1%nat ∧
    Refund_save refund_30_of_sale_7 db_one_approval = (inr (), db1) ∧
    Refund_save refund_30_of_sale_7 db1 = (inr (), db2) ∧
    approval_requests db2 = approval_requests db_one_approval ∧
    refunds db2 = [refund_30_of_sale_7; refund_30_of_sale_7].
Proof.
  eexists _, _. split; [reflexivity|].
  split; [by vm_compute|]. split; [by vm_compute|]. split; reflexivity.
Qed.

(** ** Seller approval *)

(** C8, evaluated where the code departs from it.  The approve action
    called by the Attendant on the Seller request checks no role: it
    saves the status [approved] and then raises TypeError in its call of
    [send_notification], not an authorisation error, and the saved status
    stays; called by the SuperUser it does just the same, and no profile
    changes in either case.  [approve_seller], which the action never
    calls, gets as far as [self.admin.role] and raises AttributeError:
    the Customer named in the request is not made Admin. *)
Theorem C8_seller_approval_at_failing_input :
  pr_role <$> profiles db_seller_request !! 3%nat = Some "Attendant" ∧
  ApprovalRequestViewSet_approve 3 0 db_seller_request
    = (inl send_notification_missing_arguments,
       set_approval_requests
         (λ _, [request_with_status "approved" seller_request])
         db_seller_request) ∧
  ApprovalRequestViewSet_approve 1 0 db_seller_request
    = ApprovalRequestViewSet_approve 3 0 db_seller_request ∧
  ApprovalRequest_approve_seller 0 db_seller_request
    = (inl User_has_no_role, db_seller_request) ∧
  pr_role <$> profiles db_seller_request !! 2%nat = Some "Customer".
Proof.
  split; [reflexivity|]. split; [by vm_compute|]. split; [reflexivity|].
  split; by vm_compute.
Qed.

(** ** The stock invariant *)

Lemma sale_lines_stock_nonneg sale items :
  ∀ total db res db',
    stock_nonneg db →
    sale_lines sale items total db = (res, db') →
    stock_nonneg db'.
Proof.
  induction items as [|it items IH]; intros total db res db' Hinv Hrun; simpl in Hrun.
  - tx_simpl. by injection Hrun as _ <-.
  - destruct (Z.ltb_spec (p_quantity (sd_product it)) (sd_quantity it)).
    + tx_simpl. by injection Hrun as _ <-.
    + tx_simpl. eapply IH; [|exact Hrun].
      unfold stock_nonneg; simpl. apply map_Forall_insert_2; [simpl; lia | done].
Qed.

Lemma order_lines_raise_or_empty order items total db :
  items = [] ∨ ∃ e, order_lines order items total db = (inl e, db).
Proof.
  destruct items as [|it items]; [by left|]. right.
  simpl. unfold OrderItem_objects_create. tx_simpl.
  destruct (products db !! od_id it) as [p|]; simpl; [|by eexists].
  destruct (p_quantity p <? od_quantity it); by eexists.
Qed.

Lemma SaleSerializer_create_raises vd db :
  SaleSerializer_create vd db
  = (inl (match sd_items vd with
          | [] => ValidationError "This sale must include at least one item."
          | _ => Sale_unexpected_items
          end), db).
Proof.
  unfold SaleSerializer_create. by destruct (sd_items vd).
Qed.

Lemma OrderSerializer_create_cases vd db :
  (od_items vd = [] ∧
   OrderSerializer_create vd db
   = (inr (next_pk (orders db)),
      set_orders <[next_pk (orders db) :=
                    mkOrder (od_shop vd) (od_customer_name vd) 0 (od_status vd)]> db)) ∨
  (od_items vd ≠ [] ∧ ∃ e, OrderSerializer_create vd db = (inl e, db)).
Proof.
  unfold OrderSerializer_create.
  unfold atomic, mbind, Tx_bind, get_db, modify_db, mret, Tx_ret.
  match goal with
  | |- context [order_lines ?o ?l ?t ?d] =>
      destruct (order_lines_raise_or_empty o l t d) as [Hnil|[e He]]
  end.
  - left. split; [done|]. rewrite Hnil. simpl.
    unfold mret, Tx_ret, set_orders, order_with_total; simpl.
    by rewrite insert_insert_eq.
  - right. rewrite He. split; [|by exists e].
    intros Hnil. rewrite Hnil in He. discriminate.
Qed.

Lemma SaleSerializer_create_stock_nonneg vd db :
  stock_nonneg db → stock_nonneg (SaleSerializer_create vd db).2.
Proof. by rewrite SaleSerializer_create_raises. Qed.

Lemma OrderSerializer_create_stock_nonneg vd db :
  stock_nonneg db → stock_nonneg (OrderSerializer_create vd db).2.
Proof.
  intros Hinv.
  by destruct (OrderSerializer_create_cases vd db) as [[_ ->]|[_ [e ->]]].
Qed.

Lemma Refund_save_stock_nonneg r db :
  0 ≤ r_quantity r → stock_nonneg db → stock_nonneg (Refund_save r db).2.
Proof.
  intros Hq Hinv. destruct (Refund_save_inv r db) as [[e He]|(db' & Hsave & _ & Heff)].
  - by rewrite He.
  - rewrite Hsave. simpl.
    apply Refund_effects_inv in Heff as (_ & _ & _ & _ & _ & [Hps|(p & Hp & Hps)]);
      unfold stock_nonneg; rewrite Hps; [done|].
    apply map_Forall_insert_2; [|done].
    apply (map_Forall_lookup_1 _ _ _ _ Hinv) in Hp. simpl. lia.
Qed.

Lemma step_stock_nonneg db op :
  op_wellformed op → stock_nonneg db → stock_nonneg (step db op).
Proof.
  destruct op; simpl; intros Hwf Hinv.
  - by apply SaleSerializer_create_stock_nonneg.
  - by apply OrderSerializer_create_stock_nonneg.
  - by apply Refund_save_stock_nonneg.
Qed.

(** C7: from a store in which no product has negative stock, any sequence
    of sale creations, order creations and refund applications, whether
    they succeed or are rejected, ends in a store in which no product has
    negative stock. *)
Theorem C7_stock_never_negative (ops : list Op) (db : DB) :
  stock_nonneg db →
  Forall op_wellformed ops →
  stock_nonneg (run db ops).
Proof.
  revert db. induction ops as [|op ops IH]; intros db Hinv Hwf; [done|].
  inversion Hwf; subst. simpl. apply IH; [|done].
  by apply step_stock_nonneg.
Qed.

Lemma C7_stock_never_negative_witness :
  stock_nonneg (run db_shop ops_of_a_day).
Proof.
  apply C7_stock_never_negative.
  - apply (bool_decide_unpack _). by vm_compute.
  - repeat constructor. simpl. lia.
Defined.

(** ** Creating a sale or an order with lines *)

(** C5, evaluated where the code departs from it.  A sale request whose
    second line asks for 2 scarves when 1 is in stock: the call raises
    TypeError in [Sale.objects.create] before any line is looked at, not
    the insufficient-stock error.  An order request whose first line is
    within stock and whose second line asks for 5 scarves: the call raises
    TypeError on storing the first line, not the insufficient-stock error.
    Only when the line over stock comes first is the error the
    insufficient-stock one.  In all three cases nothing is written. *)
Theorem C5_insufficient_stock_at_failing_input :
  Exists (λ it, p_quantity (sd_product it) < sd_quantity it)
         (sd_items sale_over_stock) ∧
  SaleSerializer_create sale_over_stock db_shop
    = (inl Sale_unexpected_items, db_shop) ∧
  OrderSerializer_create order_over_stock db_shop
    = (inl OrderItem_unexpected_item, db_shop) ∧
  OrderSerializer_create order_over_stock_in_first_line db_shop
    = (inl (InsufficientStock (mkProduct "scarf" 4 1)), db_shop).
Proof.
  split; [apply Exists_cons_tl, Exists_cons_hd; simpl; lia|].
  split; [by vm_compute|]. split; by vm_compute.
Qed.


(** ** Refund.save: outcomes *)


(** X1: whenever [Refund.save] raises, for whatever reason, the store is
    exactly the store before the call. *)
Theorem X1_Refund_save_all_or_nothing (r : Refund) (db db' : DB) (e : Error) :
  Refund_save r db = (inl e, db') → db' = db.
Proof.
  intros H. destruct (Refund_save_inv r db) as [[e' He]|(db1 & H1 & _)].
  - rewrite He in H. by injection H as _ <-.
  - rewrite H1 in H. discriminate.
Qed.

Lemma X1_Refund_save_all_or_nothing_witness :
  (Refund_save refund_of_missing_sale db_one_approval).2 = db_one_approval.
Proof.
  apply (X1_Refund_save_all_or_nothing refund_of_missing_sale db_one_approval
           (Refund_save refund_of_missing_sale db_one_approval).2
           (DoesNotExist "Sale")).
  by vm_compute.
Defined.

(** X2: a refund of type Sale whose sale key names no stored sale (or of
    type Order whose order key names no stored order) raises DoesNotExist,
    and the Refund row that [super().save()] had already inserted is gone
    with the rest: the store is the store before the call. *)
Theorem X2_refund_of_missing_target (r : Refund) (db : DB) (p : Product) :
  Exists (is_approved_refund_request (r_shop r)) (approval_requests db) →
  products db !! r_product r = Some p →
  r_refund_amount r ≤ p_price p * r_quantity r →
  (∀ sid, r_refund_type r = "Sale" → r_sale r = Some sid →
          sales db !! sid = None →
          Refund_save r db = (inl (DoesNotExist "Sale"), db)) ∧
  (∀ oid, r_refund_type r = "Order" → r_order r = Some oid →
          orders db !! oid = None →
          Refund_save r db = (inl (DoesNotExist "Order"), db)).
Proof.
  intros Ha Hp Hle. split.
  - intros sid Hty Hs Hnone.
    rewrite Refund_save_effects by eauto using Refund_clean_ok.
    unfold Refund_effects, typed_target, Refund_apply_to_sale.
    rewrite Hty, Hs. rewrite decide_True by done.
    tx_simpl. by rewrite Hnone.
  - intros oid Hty Ho Hnone.
    rewrite Refund_save_effects by eauto using Refund_clean_ok.
    unfold Refund_effects, typed_target, Refund_apply_to_order.
    rewrite Hty, Ho. rewrite decide_False by done. rewrite decide_True by done.
    tx_simpl. by rewrite Hnone.
Qed.

Lemma X2_refund_of_missing_target_witness :
  Refund_save refund_of_missing_sale db_one_approval
  = (inl (DoesNotExist "Sale"), db_one_approval).
Proof.
  apply (proj1 (X2_refund_of_missing_target refund_of_missing_sale db_one_approval
                  (mkProduct "shirt" 10 5)
                  ltac:(constructor; by vm_compute) eq_refl ltac:(simpl; lia))
           8%nat); reflexivity.
Defined.

(** X3: a refund that is saved passed both checks, and touches little:
    the Refund table gains the refund, approval requests, profiles and
    line items are as before, every product other than the refunded one is
    as before, and the refunded product keeps its name and price while its
    stock grows by the refunded quantity when the refund has a target and
    stays when it has none. *)
Theorem X3_saved_refund_frame (r : Refund) (db db' : DB) :
  Refund_save r db = (inr (), db') →
  Exists (is_approved_refund_request (r_shop r)) (approval_requests db) ∧
  refunds db' = refunds db ++ [r] ∧
  approval_requests db' = approval_requests db ∧
  profiles db' = profiles db ∧
  order_items db' = order_items db ∧
  sale_items db' = sale_items db ∧
  (∀ pid, pid ≠ r_product r → products db' !! pid = products db !! pid) ∧
  ∃ p,
    products db !! r_product r = Some p ∧
    r_refund_amount r ≤ p_price p * r_quantity r ∧
    products db' !! r_product r =
      Some (mkProduct (p_name p) (p_price p)
              (if decide (typed_target r "Sale" (r_sale r) = None ∧
                          typed_target r "Order" (r_order r) = None)
               then p_quantity p
               else p_quantity p + r_quantity r)).
Proof.
  intros Hsave. unfold Refund_save in Hsave. unfold mbind, Tx_bind in Hsave.
  pose proof (Refund_clean_readonly r db) as Hro.
  destruct (Refund_clean r db) as [[e|[]] db1] eqn:Hclean; [discriminate|].
  simpl in Hro; subst db1.
  apply Refund_clean_ok_inv in Hclean as (Ha & p & Hp & Hle).
  unfold atomic in Hsave.
  destruct (Refund_effects r db) as [[e|[]] db2] eqn:Heff; [discriminate|].
  injection Hsave as ->.
  apply Refund_effects_cases in Heff
    as [(sid & s & p' & Ht & Hs & Hp' & ->)|
        [(oid & o & p' & Ht1 & Ht2 & Ho & Hp' & ->)|(Ht1 & Ht2 & ->)]];
    simpl; (split; [done|]); do 5 (split; [done|]).
  - rewrite Hp in Hp'. injection Hp' as <-. split.
    + intros pid Hne. by rewrite lookup_insert_ne.
    + exists p. rewrite lookup_insert_eq, Ht.
      rewrite decide_False by (intros [? ?]; discriminate). done.
  - rewrite Hp in Hp'. injection Hp' as <-. split.
    + intros pid Hne. by rewrite lookup_insert_ne.
    + exists p. rewrite lookup_insert_eq, Ht1, Ht2.
      rewrite decide_False by (intros [? ?]; discriminate). done.
  - split; [done|]. exists p. rewrite Hp, Ht1, Ht2.
    rewrite decide_True by done. by destruct p.
Qed.

(** ** Ledger: outcomes of the two create methods *)

Lemma next_pk_fresh {A} (table : gmap nat A) : table !! next_pk table = None.
Proof. apply not_elem_of_dom, is_fresh. Qed.

(** X4: whenever [SaleSerializer.create] or [OrderSerializer.create]
    raises, whatever the error and however many lines were already
    processed, the store is exactly the store before the call. *)
Theorem X4_create_all_or_nothing :
  (∀ (validated_data : SaleData) (db db' : DB) (e : Error),
     SaleSerializer_create validated_data db = (inl e, db') → db' = db) ∧
  (∀ (validated_data : OrderData) (db db' : DB) (e : Error),
     OrderSerializer_create validated_data db = (inl e, db') → db' = db).
Proof.
  split.
  - intros vd db db' e. rewrite SaleSerializer_create_raises. by intros [= _ <-].
  - intros vd db db' e.
    destruct (OrderSerializer_create_cases vd db) as [[_ ->]|[_ [e' ->]]];
      [discriminate | by intros [= _ <-]].
Qed.

(** X5: the two create methods differ on an empty item list.  A sale
    without items is refused and nothing is written; an order without
    items is created, with total_amount 0 and no line, under a key no
    stored order has. *)
Theorem X5_empty_item_list :
  (∀ (validated_data : SaleData) (db : DB),
     sd_items validated_data = [] →
     SaleSerializer_create validated_data db
       = (inl (ValidationError "This sale must include at least one item."), db)) ∧
  (∀ (validated_data : OrderData) (db : DB),
     od_items validated_data = [] →
     ∃ pk,
       orders db !! pk = None ∧
       OrderSerializer_create validated_data db
         = (inr pk, set_orders
                      <[pk := mkOrder (od_shop validated_data)
                                (od_customer_name validated_data) 0
                                (od_status validated_data)]> db)).
Proof.
  split.
  - intros vd db Hnil. rewrite SaleSerializer_create_raises. by rewrite Hnil.
  - intros vd db Hnil. exists (next_pk (orders db)). split; [apply next_pk_fresh|].
    destruct (OrderSerializer_create_cases vd db) as [[_ ->]|[Hne _]]; done.
Qed.

Lemma X3_saved_refund_frame_witness :
  Exists (is_approved_refund_request 1) (approval_requests db_one_approval) ∧
  refunds db_after_refund_30 = refunds db_one_approval ++ [refund_30_of_sale_7] ∧
  approval_requests db_after_refund_30 = approval_requests db_one_approval ∧
  profiles db_after_refund_30 = profiles db_one_approval ∧
  order_items db_after_refund_30 = order_items db_one_approval ∧
  sale_items db_after_refund_30 = sale_items db_one_approval ∧
  (∀ pid, pid ≠ 1%nat →
          products db_after_refund_30 !! pid = products db_one_approval !! pid) ∧
  ∃ p,
    products db_one_approval !! 1%nat = Some p ∧
    30 ≤ p_price p * 3 ∧
    products db_after_refund_30 !! 1%nat =
      Some (mkProduct (p_name p) (p_price p)
              (if decide (typed_target refund_30_of_sale_7 "Sale" (Some 7%nat) = None ∧
                          typed_target refund_30_of_sale_7 "Order" None = None)
               then p_quantity p
               else p_quantity p + 3)).
Proof.
  apply (X3_saved_refund_frame refund_30_of_sale_7 db_one_approval db_after_refund_30).
  by vm_compute.
Defined.

Lemma X4_create_all_or_nothing_witness :
  (SaleSerializer_create sale_over_stock db_shop).2 = db_shop ∧
  (OrderSerializer_create order_over_stock db_shop).2 = db_shop.
Proof.
  split.
  - apply (proj1 X4_create_all_or_nothing sale_over_stock db_shop _
             Sale_unexpected_items).
    by vm_compute.
  - apply (proj2 X4_create_all_or_nothing order_over_stock db_shop _
             OrderItem_unexpected_item).
    by vm_compute.
Defined.

Lemma X5_empty_item_list_witness :
  SaleSerializer_create sale_without_items db_shop
    = (inl (ValidationError "This sale must include at least one item."), db_shop) ∧
  ∃ pk,
    orders db_shop !! pk = None ∧
    OrderSerializer_create order_without_items db_shop
      = (inr pk, set_orders <[pk := mkOrder 1 "Amina" 0 "Pending"]> db_shop).
Proof.
  split.
  - apply (proj1 X5_empty_item_list sale_without_items db_shop). reflexivity.
  - apply (proj2 X5_empty_item_list order_without_items db_shop). reflexivity.
Defined.

(** ** Approval workflow *)

Lemma get_approval_request_lookup pk db :
  get_approval_request pk db =
    match approval_requests db !! pk with
    | Some a => (inr a, db)
    | None => (inl (DoesNotExist "ApprovalRequest"), db)
    end.
Proof. unfold get_approval_request. tx_simpl. by destruct (_ !! _). Qed.

(** X6: [approve_refund] cannot approve anything.  It returns normally
    exactly when the stored request is of type Refund and already has the
    status Approved, and whether it returns or raises the store is the
    store before the call: a Pending request stays Pending. *)
Theorem X6_approve_refund_changes_nothing (pk : nat) (db : DB) :
  (ApprovalRequest_approve_refund pk db).2 = db ∧
  ((ApprovalRequest_approve_refund pk db).1 = inr () ↔
   ∃ a, approval_requests db !! pk = Some a ∧
        a_request_type a = "Refund" ∧ a_status a = "Approved").
Proof.
  unfold ApprovalRequest_approve_refund. unfold mbind, Tx_bind.
  rewrite get_approval_request_lookup.
  destruct (approval_requests db !! pk) as [a|] eqn:Ha; simpl.
  - destruct (decide (a_request_type a ≠ "Refund")) as [Hty|Hty]; simpl.
    + split; [done|]. split; [discriminate|]. intros (a' & [= <-] & ? & ?). done.
    + apply dec_stable in Hty.
      destruct (decide (a_status a ≠ "Approved")) as [Hst|Hst]; simpl.
      * split; [done|]. split; [discriminate|]. intros (a' & [= <-] & ? & ?). done.
      * apply dec_stable in Hst. unfold modify_db, set_approval_requests; simpl.
        split.
        -- rewrite list_insert_id; [by destruct db|].
           rewrite Ha. f_equal. destruct a; simpl in *. by subst.
        -- split; [|done]. intros _. by exists a.
  - split; [done|]. split; [discriminate|]. by intros (a' & [=] & _).
Qed.

(** X7: the approve and reject actions of the view set never produce an
    approval that [Refund.clean] accepts.  They write the lower-case
    statuses [approved] and [rejected], so after either action on request
    [pk], a refund for a shop none of whose other requests is an Approved
    Refund request is refused with NotApproved, also when request [pk] was
    an Approved Refund request before. *)
Theorem X7_api_decision_never_unlocks_refunds
    (actor pk : nat) (db : DB) (r : Refund) :
  (∀ i a, i ≠ pk → approval_requests db !! i = Some a →
          ¬ is_approved_refund_request (r_shop r) a) →
  let db1 := (ApprovalRequestViewSet_approve actor pk db).2 in
  let db2 := (ApprovalRequestViewSet_reject actor pk db).2 in
  Refund_save r db1 = (inl NotApproved, db1) ∧
  Refund_save r db2 = (inl NotApproved, db2).
Proof.
  intros Hothers.
  assert (∀ st, st ≠ "Approved" →
    let db' := match approval_requests db !! pk with
               | Some a => set_approval_requests <[pk := request_with_status st a]> db
               | None => db
               end in
    Refund_save r db' = (inl NotApproved, db')) as Hgen.
  { intros st Hst db'.
    assert (approved_refund_request (r_shop r) db' = None) as Hnone.
    { apply approved_refund_request_None, Forall_lookup_2. intros i a Hi.
      subst db'. destruct (approval_requests db !! pk) as [a0|] eqn:Ha0.
      - simpl in Hi. apply list_lookup_insert_Some in Hi as [(_ & <- & _)|(Hne & Hi)].
        + intros (_ & _ & Hs). simpl in Hs. done.
        + by eapply Hothers.
      - destruct (decide (i = pk)) as [->|Hne]; [congruence|]. by eapply Hothers. }
    unfold Refund_save, Refund_clean. tx_simpl. by rewrite Hnone. }
  unfold ApprovalRequestViewSet_approve, ApprovalRequestViewSet_reject.
  unfold mbind, Tx_bind. rewrite get_approval_request_lookup.
  pose proof (Hgen "approved" ltac:(discriminate)) as H1.
  pose proof (Hgen "rejected" ltac:(discriminate)) as H2.
  destruct (approval_requests db !! pk); simpl in *; by split.
Qed.

Lemma X7_api_decision_never_unlocks_refunds_witness :
  let db1 := (ApprovalRequestViewSet_approve 3 0 db_one_approval).2 in
  let db2 := (ApprovalRequestViewSet_reject 3 0 db_one_approval).2 in
  Refund_save refund_30_of_sale_7 db1 = (inl NotApproved, db1) ∧
  Refund_save refund_30_of_sale_7 db2 = (inl NotApproved, db2).
Proof.
  apply (X7_api_decision_never_unlocks_refunds 3 0 db_one_approval refund_30_of_sale_7).
  intros [|i] a Hne Hi; [done | discriminate Hi].
Defined.

(** X8: [approve_seller] promotes nobody.  On any stored request it
    raises and leaves the store as it was: ValidationError when the
    request is not of type Seller, and AttributeError at [self.admin.role]
    when it is, whoever the admin of the request is. *)
Theorem X8_approve_seller_always_raises (pk : nat) (db : DB) :
  ApprovalRequest_approve_seller pk db =
    (inl (match approval_requests db !! pk with
          | None => DoesNotExist "ApprovalRequest"
          | Some a =>
              if decide (a_request_type a = "Seller")
              then User_has_no_role
              else ValidationError "This is not a Seller approval request."
          end), db).
Proof.
  unfold ApprovalRequest_approve_seller. unfold mbind, Tx_bind.
  rewrite get_approval_request_lookup.
  destruct (approval_requests db !! pk) as [a|]; [|done].
  destruct (decide (a_request_type a = "Seller")) as [Hty|Hty].
  - by rewrite decide_False by (by intros ?).
  - by rewrite decide_True.
Qed.

(** ** Ledger: what the create methods store *)

(** X9: an order request with at least one line is never created, and the
    first line alone decides the error: DoesNotExist when it names no
    stored product, the insufficient-stock error when it asks for more
    than is in stock, and otherwise TypeError, raised on storing the line.
    The store is left as it was. *)
Theorem X9_order_with_lines_is_never_created
    (validated_data : OrderData) (db : DB)
    (item_data : OrderItemData) (rest : list OrderItemData) :
  od_items validated_data = item_data :: rest →
  OrderSerializer_create validated_data db =
    (inl (match products db !! od_id item_data with
          | None => DoesNotExist "Product"
          | Some product =>
              if p_quantity product <? od_quantity item_data
              then InsufficientStock product
              else OrderItem_unexpected_item
          end), db).
Proof.
  intros Hitems. unfold OrderSerializer_create. rewrite Hitems.
  unfold atomic, mbind, Tx_bind, get_db, modify_db, mret, Tx_ret.
  simpl. unfold OrderItem_objects_create. tx_simpl.
  destruct (products db !! od_id item_data) as [p|]; simpl; [|done].
  by destruct (p_quantity p <? od_quantity item_data).
Qed.

Lemma X9_order_with_lines_is_never_created_witness :
  OrderSerializer_create order_of_2_shirts db_shop =
    (inl (match products db_shop !! 1%nat with
          | None => DoesNotExist "Product"
          | Some product =>
              if p_quantity product <? 2
              then InsufficientStock product
              else OrderItem_unexpected_item
          end), db_shop).
Proof.
  apply (X9_order_with_lines_is_never_created order_of_2_shirts db_shop
           (mkOrderItemData 1 2) []).
  reflexivity.
Defined.

(** X10: an order request with a line naming a product that is not in the
    store is never created: the call raises and the store is unchanged. *)
Theorem X10_order_of_missing_product (validated_data : OrderData) (db : DB) :
  Exists (λ it, products db !! od_id it = None) (od_items validated_data) →
  ∃ e, OrderSerializer_create validated_data db = (inl e, db).
Proof.
  intros Hex.
  destruct (OrderSerializer_create_cases validated_data db)
    as [[Hnil _]|[_ [e He]]]; [|by exists e].
  rewrite Hnil in Hex. by apply Exists_nil in Hex.
Qed.

Lemma X10_order_of_missing_product_witness :
  ∃ e, OrderSerializer_create order_of_unknown_product db_shop = (inl e, db_shop).
Proof.
  apply X10_order_of_missing_product.
  apply Exists_cons_tl, Exists_cons_hd. reflexivity.
Defined.

(** ** Rows that exist: what later operations can do to them *)

Lemma SaleSerializer_create_tables vd db :
  (SaleSerializer_create vd db).2 = db.
Proof. by rewrite SaleSerializer_create_raises. Qed.

Lemma OrderSerializer_create_tables vd db :
  sales (OrderSerializer_create vd db).2 = sales db ∧
  sale_items (OrderSerializer_create vd db).2 = sale_items db ∧
  (orders (OrderSerializer_create vd db).2 = orders db ∨
   ∃ o, orders (OrderSerializer_create vd db).2
        = <[next_pk (orders db) := o]> (orders db)).
Proof.
  destruct (OrderSerializer_create_cases vd db) as [[_ ->]|[_ [e ->]]]; simpl.
  - do 2 (split; [done|]). right. by eexists.
  - do 2 (split; [done|]). by left.
Qed.

Lemma insert_fresh_lookup {A} (m : gmap nat A) x i y :
  m !! i = Some y → <[next_pk m := x]> m !! i = Some y.
Proof.
  intros Hi. rewrite lookup_insert_ne; [done|].
  intros <-. by rewrite next_pk_fresh in Hi.
Qed.

Lemma step_order_row db op oid o :
  orders db !! oid = Some o →
  ∃ o', orders (step db op) !! oid = Some o' ∧
        o_shop o' = o_shop o ∧
        (o_status o = "Cancelled" → o_status o' = "Cancelled").
Proof.
  intros Ho. destruct op as [vd|vd|r]; simpl.
  - rewrite SaleSerializer_create_tables. by exists o.
  - destruct (OrderSerializer_create_tables vd db) as (_ & _ & [->|[o1 ->]]);
      exists o; [done|]. split; [by apply insert_fresh_lookup|done].
  - destruct (Refund_save_inv r db) as [[e ->]|(db' & -> & _ & Heff)];
      [by exists o|]. simpl.
    apply Refund_effects_cases in Heff
      as [(sid & s & p & _ & _ & _ & ->)|
          [(oid0 & o0 & p & _ & _ & Ho0 & _ & ->)|(_ & _ & ->)]]; simpl;
      [by exists o| |by exists o].
    destruct (decide (oid0 = oid)) as [->|Hne].
    + rewrite Ho in Ho0. injection Ho0 as <-.
      rewrite lookup_insert_eq. eexists; split; [done|]. simpl. split; [done|].
      intros ->. by destruct (_ >=? _).
    + rewrite lookup_insert_ne by done. by exists o.
Qed.

Lemma step_sale_row db op sid s :
  sales db !! sid = Some s →
  ∃ s', sales (step db op) !! sid = Some s' ∧
        s_shop s' = s_shop s ∧
        (s_is_refunded s = true → s_is_refunded s' = true).
Proof.
  intros Hs. destruct op as [vd|vd|r]; simpl.
  - rewrite SaleSerializer_create_tables. by exists s.
  - destruct (OrderSerializer_create_tables vd db) as (-> & _). by exists s.
  - destruct (Refund_save_inv r db) as [[e ->]|(db' & -> & _ & Heff)];
      [by exists s|]. simpl.
    apply Refund_effects_cases in Heff
      as [(sid0 & s0 & p & _ & Hs0 & _ & ->)|
          [(oid0 & o0 & p & _ & _ & _ & _ & ->)|(_ & _ & ->)]]; simpl;
      [|by exists s|by exists s].
    destruct (decide (sid0 = sid)) as [->|Hne].
    + rewrite Hs in Hs0. injection Hs0 as <-.
      rewrite lookup_insert_eq. eexists; split; [done|]. simpl.
      split; [done|]. intros ->. by destruct (_ >=? _).
    + rewrite lookup_insert_ne by done. by exists s.
Qed.

Lemma step_sale_table db op :
  dom (sales (step db op)) = dom (sales db) ∧
  sale_items (step db op) = sale_items db.
Proof.
  destruct op as [vd|vd|r]; simpl.
  - by rewrite SaleSerializer_create_tables.
  - by destruct (OrderSerializer_create_tables vd db) as (-> & -> & _).
  - destruct (Refund_save_inv r db) as [[e ->]|(db' & -> & _ & Heff)]; [done|].
    simpl.
    apply Refund_effects_cases in Heff
      as [(sid0 & s0 & p & _ & Hs0 & _ & ->)|
          [(oid0 & o0 & p & _ & _ & _ & _ & ->)|(_ & _ & ->)]]; simpl;
      [|done|done].
    split; [|done]. apply dom_insert_lookup_L. by eexists.
Qed.

(** X11: [SaleSerializer.create] never creates a sale.  It raises
    ValidationError when the request has no line and TypeError in
    [Sale.objects.create] when it has one, and the store is left as it
    was; so no sequence of sale creations, order creations and refunds
    adds a sale or a sale line to the store. *)
Theorem X11_sale_is_never_created (validated_data : SaleData) (db : DB) :
  SaleSerializer_create validated_data db =
    (inl (match sd_items validated_data with
          | [] => ValidationError "This sale must include at least one item."
          | _ :: _ => Sale_unexpected_items
          end), db) ∧
  ∀ ops, dom (sales (run db ops)) = dom (sales db) ∧
         sale_items (run db ops) = sale_items db.
Proof.
  split; [apply SaleSerializer_create_raises|].
  intros ops. revert db. induction ops as [|op ops IH]; intros db; [done|].
  simpl. destruct (IH (step db op)) as [-> ->]. apply step_sale_table.
Qed.

(** X13: no sale creation, order creation or refund, accepted or
    rejected, removes an order or brings a Cancelled order back: an order
    that is Cancelled is still there and still Cancelled after any
    sequence of such operations. *)
Theorem X13_cancelled_order_stays_cancelled
    (ops : list Op) (db : DB) (oid : nat) (o : Order) :
  orders db !! oid = Some o →
  o_status o = "Cancelled" →
  ∃ o', orders (run db ops) !! oid = Some o' ∧ o_status o' = "Cancelled".
Proof.
  revert db o. induction ops as [|op ops IH]; intros db o Ho Hst; [by exists o|].
  destruct (step_order_row db op oid o Ho) as (o1 & Ho1 & _ & Hst1).
  simpl. eapply IH; [exact Ho1 | by apply Hst1].
Qed.


(** X14: a stored sale stays.  Whatever sales, orders and refunds follow,
    accepted or rejected, the sale is still in the store under its key,
    it belongs to the same shop, and once is_refunded is set it stays
    set. *)
Theorem X14_sale_row_persists
    (ops : list Op) (db : DB) (sid : nat) (s : Sale) :
  sales db !! sid = Some s →
  ∃ s', sales (run db ops) !! sid = Some s' ∧
        s_shop s' = s_shop s ∧
        (s_is_refunded s = true → s_is_refunded s' = true).
Proof.
  revert db s. induction ops as [|op ops IH]; intros db s Hs; [by exists s|].
  destruct (step_sale_row db op sid s Hs) as (s1 & Hs1 & Hshop1 & Hfl1).
  simpl. destruct (IH _ _ Hs1) as (s' & Hs' & Hshop & Hfl).
  exists s'. split; [done|]. split; [congruence|]. auto.
Qed.

Lemma X13_cancelled_order_stays_cancelled_witness :
  ∃ o', orders (run db_cancelled_order ops_after_cancellation) !! 4%nat = Some o' ∧
        o_status o' = "Cancelled".
Proof.
  apply (X13_cancelled_order_stays_cancelled ops_after_cancellation
           db_cancelled_order 4 (mkOrder 1 "Amina" 0 "Cancelled"));
    reflexivity.
Defined.

Lemma X14_sale_row_persists_witness :
  ∃ s', sales (run db_one_approval ops_on_sale_7) !! 7%nat = Some s' ∧
        s_shop s' = 1%nat ∧
        (false = true → s_is_refunded s' = true).
Proof.
  apply (X14_sale_row_persists ops_on_sale_7 db_one_approval 7
           (mkSale 1 None 100 "Cash" true false 0)).
  reflexivity.
Defined.

(** ** Shop reports *)

Lemma Zsum_perm l1 l2 : l1 ≡ₚ l2 → Zsum l1 = Zsum l2.
Proof.
  unfold Zsum. induction 1; simpl; lia.
Qed.

(** A report over a keyed table, after the row under one key is replaced
    by a row that is selected or not as the old one was. *)
Lemma table_sum_update {A} (m : gmap nat A) i x y
    (P : nat * A → Prop) `{!∀ kv, Decision (P kv)} (f g : nat * A → Z) :
  m !! i = Some x →
  (P (i, x) ↔ P (i, y)) →
  (∀ kv, kv.1 ≠ i → f kv = g kv) →
  Zsum (g <$> filter P (map_to_list (<[i:=y]> m)))
  = Zsum (f <$> filter P (map_to_list m))
    + (if decide (P (i, x)) then g (i, y) - f (i, x) else 0).
Proof.
  intros Hx HP Hfg.
  assert (Zsum (g <$> filter P (map_to_list (delete i m)))
          = Zsum (f <$> filter P (map_to_list (delete i m)))) as Hrest.
  { f_equal. apply list_fmap_ext. intros n [k v] Hkv. symmetry. apply Hfg. simpl.
    apply list_elem_of_lookup_2, list_elem_of_filter in Hkv as [_ Hkv].
    apply elem_of_map_to_list in Hkv. intros ->.
    by rewrite lookup_delete_eq in Hkv. }
  rewrite (Zsum_perm (f <$> filter P (map_to_list m))
                     (f <$> filter P ((i, x) :: map_to_list (delete i m))))
    by (by rewrite map_to_list_delete).
  rewrite <- (insert_delete_eq m).
  rewrite (Zsum_perm (g <$> filter P (map_to_list (<[i:=y]> (delete i m))))
                     (g <$> filter P ((i, y) :: map_to_list (delete i m))))
    by (rewrite map_to_list_insert; [done | apply lookup_delete_eq]).
  rewrite !filter_cons.
  destruct (decide (P (i, x))) as [Hpx|Hpx].
  - rewrite decide_True by tauto. rewrite !fmap_cons. unfold Zsum in *; simpl. lia.
  - rewrite decide_False by tauto. lia.
Qed.

Lemma Zsum_fmap_ext {A} (f g : A → Z) (l : list A) :
  (∀ x, f x = g x) → Zsum (f <$> l) = Zsum (g <$> l).
Proof. intros H. f_equal. apply list_fmap_ext. intros _ x _. apply H. Qed.

(** X16: a saved refund changes no shop's units sold.  Stock goes back
    and the sale or order row is rewritten, but [get_total_sales] counts
    the line items of the shop's sales and orders, and a refund touches
    no line item and moves no sale or order to another shop. *)
Theorem X16_refund_keeps_units_sold (r : Refund) (db db' : DB) (shop : nat) :
  Refund_save r db = (inr (), db') →
  Shop_get_total_sales shop db' = Shop_get_total_sales shop db.
Proof.
  intros Hsave.
  destruct (Refund_save_inv r db) as [[e He]|(db1 & H1 & _ & Heff)];
    [rewrite He in Hsave; discriminate|].
  rewrite H1 in Hsave. injection Hsave as ->.
  unfold Shop_get_total_sales, Shop_sale_set, Shop_order_set.
  apply Refund_effects_cases in Heff
    as [(sid & s & p & Ht & Hs & Hp & ->)|
        [(oid & o & p & Ht1 & Ht2 & Ho & Hp & ->)|(Ht1 & Ht2 & ->)]].
  - unfold Sale_get_items_quantity, Order_get_items_quantity.
    cbn [sales orders sale_items order_items].
    rewrite (table_sum_update (sales db) sid s (sale_after_refund r s)
               (λ kv, s_shop kv.2 = shop)
               (λ kv, Zsum (si_quantity <$>
                        filter (λ it, si_sale it = kv.1) (sale_items db)))) by done.
    cbn beta. cbn [fst snd].
    destruct (decide (s_shop s = shop)); lia.
  - unfold Sale_get_items_quantity, Order_get_items_quantity.
    cbn [sales orders sale_items order_items].
    rewrite (table_sum_update (orders db) oid o (order_after_refund r oid db o)
               (λ kv, o_shop kv.2 = shop)
               (λ kv, Zsum (oi_quantity <$>
                        filter (λ it, oi_order it = kv.1) (order_items db)))) by done.
    cbn beta. cbn [fst snd].
    destruct (decide (o_shop o = shop)); lia.
  - done.
Qed.

Lemma X16_refund_keeps_units_sold_witness :
  Shop_get_total_sales 1 db_after_refund_30 = Shop_get_total_sales 1 db_one_approval.
Proof.
  apply (X16_refund_keeps_units_sold refund_30_of_sale_7 db_one_approval
           db_after_refund_30 1).
  by vm_compute.
Defined.

(** ** Profile.save *)

(** X17: [Profile.save] never stores an Attendant without a shop.  It
    stores first_login as True only for a new instance whose role is
    Attendant, and saving a stored profile again always succeeds and
    stores first_login as False, with every other field as it is. *)
Theorem X17_Profile_save_first_login
    (new_pk : nat) (self saved : ProfileInstance) :
  Profile_save new_pk self = inr saved →
  (pi_role saved = "Attendant" → is_Some (pi_shop saved)) ∧
  (pi_first_login saved = true ↔ pi_pk self = None ∧ pi_role self = "Attendant") ∧
  ∀ new_pk',
    Profile_save new_pk' saved
    = inr (mkProfileInstance (pi_pk saved) (pi_shop saved) (pi_role saved) false).
Proof.
  unfold Profile_save.
  destruct (decide (pi_role self = "Attendant" ∧ pi_shop self = None)) as [Hbad|Hok];
    [discriminate|].
  intros [= <-]. cbn [pi_role pi_shop pi_pk pi_first_login].
  split; [|split].
  - intros Hrole. destruct (pi_shop self); [by eexists|]. by destruct Hok.
  - by destruct (decide (pi_pk self = None ∧ pi_role self = "Attendant")).
  - intros new_pk'. rewrite decide_False by done.
    rewrite decide_False by (intros [? _]; discriminate). done.
Qed.

Lemma X17_Profile_save_first_login_witness :
  let saved := mkProfileInstance (Some 5%nat) (Some 1%nat) "Attendant" true in
  (pi_role saved = "Attendant" → is_Some (pi_shop saved)) ∧
  (pi_first_login saved = true ↔
   pi_pk new_attendant = None ∧ pi_role new_attendant = "Attendant") ∧
  ∀ new_pk',
    Profile_save new_pk' saved
    = inr (mkProfileInstance (pi_pk saved) (pi_shop saved) (pi_role saved) false).
Proof.
  apply (X17_Profile_save_first_login 5 new_attendant). reflexivity.
Defined.
